(** * Renewable Energy Site Analyzer: the data pipeline of [app.py]

    A shallow embedding of the pipeline
    fetch -> clean -> aggregate -> classify / shape charts
    of the Streamlit dashboard, and the properties its specification states.

    Python floats are modelled by [float]: either [NaN] or a rational number.
    Comparisons of floats are exact, so the classifiers are modelled exactly;
    sums and means are taken in exact arithmetic (rounding and the infinities
    are outside the model). *)

From Stdlib Require Import String Ascii QArith Qminmax ZArith Bool List Lia Lqa Sorted.
Import ListNotations.

Open Scope Q_scope.

(** ** Floats with NaN *)

Inductive float : Type :=
| NaN
| Num (q : Q).

Module Float.

(** [a < b] on Python floats: false as soon as one side is NaN. *)
Definition ltb (a b : float) : bool :=
  match a, b with
  | Num x, Num y => negb (Qle_bool y x)
  | _, _ => false
  end.

(** [a == b] on Python floats: NaN equals nothing. *)
Definition eqb (a b : float) : bool :=
  match a, b with
  | Num x, Num y => Qeq_bool x y
  | _, _ => false
  end.

(** [pandas.isna] on a float cell. *)
Definition isna (a : float) : bool :=
  match a with
  | NaN => true
  | Num _ => false
  end.

End Float.

Declare Scope float_scope.
Infix "<?" := Float.ltb (at level 70, no associativity) : float_scope.
Delimit Scope float_scope with float.

(** ** Suitability classifiers (Phase VI, lines 318-339) *)

Inductive wind_band : Type :=
| WindPoor | WindMarginal | WindFair | WindGood | WindExcellent.

Inductive solar_band : Type :=
| SolarPoor | SolarFair | SolarGood | SolarExcellent.

(** The [if]/[elif] chain on [metrics['avg_wind_speed']]. *)
Definition wind_assessment (avg_wind_speed : float) : wind_band :=
  if (avg_wind_speed <? Num 3)%float then WindPoor
  else if (avg_wind_speed <? Num 5)%float then WindMarginal
  else if (avg_wind_speed <? Num 6.5)%float then WindFair
  else if (avg_wind_speed <? Num 7.5)%float then WindGood
  else WindExcellent.

(** The [if]/[elif] chain on [metrics['avg_solar_radiation']]. *)
Definition solar_assessment (avg_solar_radiation : float) : solar_band :=
  if (avg_solar_radiation <? Num 3)%float then SolarPoor
  else if (avg_solar_radiation <? Num 4)%float then SolarFair
  else if (avg_solar_radiation <? Num 5)%float then SolarGood
  else SolarExcellent.

(** The text assigned to [wind_assessment] in each branch. *)
Definition wind_text (b : wind_band) : string :=
  match b with
  | WindPoor => "❌ **Poor** - Not suitable for wind energy"
  | WindMarginal => "⚠️ **Marginal** - Limited wind energy potential"
  | WindFair => "✅ **Fair** - Moderate wind energy potential"
  | WindGood => "✅ **Good** - Good wind energy potential"
  | WindExcellent => "🌟 **Excellent** - Excellent wind energy potential"
  end.

(** The text assigned to [solar_assessment] in each branch. *)
Definition solar_text (b : solar_band) : string :=
  match b with
  | SolarPoor => "❌ **Poor** - Limited solar potential"
  | SolarFair => "⚠️ **Fair** - Moderate solar potential"
  | SolarGood => "✅ **Good** - Good solar potential"
  | SolarExcellent => "🌟 **Excellent** - Excellent solar potential"
  end.

(** Position of a band on its ordinal scale. *)
Definition wind_rank (b : wind_band) : nat :=
  match b with
  | WindPoor => 0 | WindMarginal => 1 | WindFair => 2 | WindGood => 3
  | WindExcellent => 4
  end.

Definition solar_rank (b : solar_band) : nat :=
  match b with
  | SolarPoor => 0 | SolarFair => 1 | SolarGood => 2 | SolarExcellent => 3
  end.

(** ** The data frame built by the fetcher

    One row per day; the columns are those of the [pd.DataFrame] call:
    [date], [wind_speed], [wind_direction], [solar_irradiance]. *)

Record Date : Type := mkDate { d_year : Z; d_month : Z; d_day : Z }.

Record row : Type := mkRow {
  date : Date;
  wind_speed : float;
  wind_direction : float;
  solar_irradiance : float
}.

Definition DataFrame : Type := list row.

(** [df.empty] *)
Definition empty (df : DataFrame) : bool :=
  match df with
  | [] => true
  | _ :: _ => false
  end.

(** ** Cleaner: [df.replace(-999, np.nan)] (line 149)

    Every cell equal to [to_replace] becomes [value]; the [date] column holds
    timestamps, which never equal a number. *)

Definition replace_cell (to_replace : Q) (value : float) (c : float) : float :=
  if Float.eqb c (Num to_replace) then value else c.

Definition replace (to_replace : Q) (value : float) (df : DataFrame) : DataFrame :=
  map (fun r =>
         {| date := date r;
            wind_speed := replace_cell to_replace value (wind_speed r);
            wind_direction := replace_cell to_replace value (wind_direction r);
            solar_irradiance := replace_cell to_replace value (solar_irradiance r) |})
      df.

(** NASA POWER's fill value for a day without observation. *)
Definition sentinel : Q := -999.

Definition clean (df : DataFrame) : DataFrame := replace sentinel NaN df.



(** ** Aggregator: pandas' [Series.mean], [Series.max], [Series.sum]

    All three skip NaN ([skipna=True]); [sum] of no value at all is 0
    ([min_count=0]), [mean] and [max] of no value at all are NaN. *)

Module Series.

(** The non-missing values of a column, in order. *)
Fixpoint dropna (col : list float) : list Q :=
  match col with
  | [] => []
  | NaN :: t => dropna t
  | Num q :: t => q :: dropna t
  end.

Definition total (xs : list Q) : Q := fold_left Qplus xs 0.


Definition mean (col : list float) : float :=
  match dropna col with
  | [] => NaN
  | xs => Num (total xs / inject_Z (Z.of_nat (length xs)))
  end.

Definition max (col : list float) : float :=
  match dropna col with
  | [] => NaN
  | x :: xs => Num (fold_left Qmax xs x)
  end.

Definition sum (col : list float) : float := Num (total (dropna col)).

End Series.

Record Metrics : Type := mkMetrics {
  avg_wind_speed : float;
  avg_solar_radiation : float;
  max_wind_speed : float;
  max_solar_radiation : float;
  total_solar_energy : float
}.

(** [calculate_metrics] (lines 165-183) *)
Definition calculate_metrics (df : DataFrame) : Metrics :=
  {| avg_wind_speed := Series.mean (map wind_speed df);
     avg_solar_radiation := Series.mean (map solar_irradiance df);
     max_wind_speed := Series.max (map wind_speed df);
     max_solar_radiation := Series.max (map solar_irradiance df);
     total_solar_energy := Series.sum (map solar_irradiance df) |}.

(** ** Chart data *)

(** The data of one [go.Scatter] trace. *)
Record Scatter : Type := mkScatter { scatter_x : list Date; scatter_y : list float }.

(** [create_time_series_charts] (lines 220-266): the wind trace plots
    [df['date']] against [df['wind_speed']], the solar trace [df['date']]
    against [df['solar_irradiance']]. *)
Definition create_time_series_charts (df : DataFrame) : Scatter * Scatter :=
  ({| scatter_x := map date df; scatter_y := map wind_speed df |},
   {| scatter_x := map date df; scatter_y := map solar_irradiance df |}).

(** [df[['wind_speed', 'wind_direction']].dropna()]: the rows in which both
    cells are present, as (speed, direction) pairs. *)
Fixpoint dropna_wind (df : DataFrame) : list (Q * Q) :=
  match df with
  | [] => []
  | r :: t =>
      match wind_speed r, wind_direction r with
      | Num s, Num d => (s, d) :: dropna_wind t
      | _, _ => dropna_wind t
      end
  end.

(** A row that [dropna] removes from the wind-rose data. *)
Definition incomplete (r : row) : bool :=
  Float.isna (wind_speed r) || Float.isna (wind_direction r).

(** The arguments of [ax.bar(direction, var)]. *)
Record WindRose : Type := mkWindRose { direction : list Q; var : list Q }.

(** [create_wind_rose] (lines 187-217): [None] when no row is left. *)
Definition create_wind_rose (df : DataFrame) : option WindRose :=
  let clean_df := dropna_wind df in
  if (List.length clean_df =? 0)%nat then None
  else Some {| direction := map snd clean_df; var := map fst clean_df |}.
(** ** Exceptions and the [try] block

    [result A] is the outcome of a Python expression: a value, or a raised
    exception. Only the class of an exception matters to the handlers of
    [fetch_nasa_power_data]. *)

Inductive exn : Type :=
| Timeout                      (* requests.exceptions.Timeout *)
| ConnectionError              (* requests.exceptions.ConnectionError *)
| HTTPError (status : Z)       (* requests.exceptions.HTTPError *)
| JSONDecodeError              (* requests.exceptions.JSONDecodeError *)
| OtherRequestException        (* any other requests.exceptions.RequestException *)
| TypeError
| AttributeError
| KeyError
| ValueError.

(** [isinstance(e, requests.exceptions.RequestException)] *)
Definition is_RequestException (e : exn) : bool :=
  match e with
  | Timeout | ConnectionError | HTTPError _ | JSONDecodeError
  | OtherRequestException => true
  | TypeError | AttributeError | KeyError | ValueError => false
  end.

Inductive result (A : Type) : Type :=
| Return (a : A)
| Raise (e : exn).

Arguments Return {A} a.
Arguments Raise {A} e.

Definition bind {A B : Type} (c : result A) (k : A -> result B) : result B :=
  match c with
  | Return a => k a
  | Raise e => Raise e
  end.

Declare Scope py_scope.
Delimit Scope py_scope with py.
Notation "x <- c ;; k" := (bind c (fun x => k))
  (at level 61, c at next level, right associativity) : py_scope.

(** ** Decoded JSON

    [json A] is a value returned by [response.json()]; when it is an object
    (a Python [dict], keys unique, in document order) its members have type
    [A]. The body of a response is four levels deep:
    body -> "properties" -> "parameter" -> parameter name -> day -> number,
    and a day value is a number or [null] (a [float], NaN for [null]). *)

Set Warnings "-register-all".

Inductive json (A : Type) : Type :=
| JNull
| JBool (b : bool)
| JNum (q : Q)
| JStr (s : string)
| JList (l : list (json A))
| JDict (d : list (string * A)).

Arguments JNull {A}.
Arguments JBool {A} b.
Arguments JNum {A} q.
Arguments JStr {A} s.
Arguments JList {A} l.
Arguments JDict {A} d.

Definition DailyValues : Type := json float.
Definition Parameters : Type := json DailyValues.
Definition Properties : Type := json Parameters.
Definition Body : Type := json Properties.

Module Py.

Fixpoint lookup {A : Type} (key : string) (d : list (string * A)) : option A :=
  match d with
  | [] => None
  | (k, v) :: t => if String.eqb k key then Some v else lookup key t
  end.

(** [key in j] *)
Definition contains {A : Type} (key : string) (j : json A) : result bool :=
  match j with
  | JDict d =>
      Return (match lookup key d with Some _ => true | None => false end)
  | JList l =>
      Return (existsb (fun e => match e with
                                | JStr s => String.eqb s key
                                | _ => false
                                end) l)
  | JStr s =>
      Return (match String.index 0 key s with Some _ => true | None => false end)
  | JNull | JBool _ | JNum _ => Raise TypeError
  end.

(** [j[key]] for a string [key] *)
Definition getitem {A : Type} (j : json A) (key : string) : result A :=
  match j with
  | JDict d =>
      match lookup key d with
      | Some v => Return v
      | None => Raise KeyError
      end
  | _ => Raise TypeError
  end.

(** [j.get(key, default)] *)
Definition get {A : Type} (j : json A) (key : string) (default : A) : result A :=
  match j with
  | JDict d =>
      Return (match lookup key d with Some v => v | None => default end)
  | _ => Raise AttributeError
  end.

(** [list(j.keys())] *)
Definition keys {A : Type} (j : json A) : result (list string) :=
  match j with
  | JDict d => Return (map fst d)
  | _ => Raise AttributeError
  end.

(** [list(j.values())] *)
Definition values {A : Type} (j : json A) : result (list A) :=
  match j with
  | JDict d => Return (map snd d)
  | _ => Raise AttributeError
  end.

End Py.

(** ** The outside world: the HTTP API and the date parser of pandas *)

(** The query of the URL built at line 123: the three parameters and the
    community are constants, the rest comes from [(lat, lon, year)]. *)
Record Request : Type := mkRequest {
  parameters : list string;
  community : string;
  longitude : Q;
  latitude : Q;
  start : Date;
  end_ : Date
}.

Record Response : Type := mkResponse {
  status_code : Z;
  json_ : result Body      (* what [response.json()] does *)
}.

Class Environment : Type := {
  (** [requests.get(url, timeout=30)] issued at a given time (seconds) *)
  requests_get : Z -> Request -> result Response;
  (** pandas' parser of one key under [format='%Y%m%d']; [None] stands for
      its [ValueError] *)
  strptime : string -> option Date
}.

(** [response.raise_for_status()]: client and server errors raise. *)
Definition raise_for_status (r : Response) : result unit :=
  if ((400 <=? status_code r) && (status_code r <? 600))%Z
  then Raise (HTTPError (status_code r))
  else Return tt.

(** What the fetcher shows with [st.error] before returning [None]. *)
Inductive st_error : Type :=
| ErrorFetching (e : exn)      (* "Error fetching data: {e}" *)
| ErrorProcessing (e : exn)    (* "Error processing data: {e}" *)
| UnexpectedFormat.            (* "Unexpected data format from API" *)

(** What happens in a session: time goes by, or the user presses Analyze. *)
Inductive event : Type :=
| Wait (seconds : Z)
| Analyze (lat lon : Q) (year : Z).

Section Fetcher.

Context {env : Environment}.

(** [pd.to_datetime(keys, format='%Y%m%d')] *)
Fixpoint to_datetime (keys : list string) : result (list Date) :=
  match keys with
  | [] => Return []
  | k :: t =>
      match strptime k with
      | None => Raise ValueError
      | Some d => (ds <- to_datetime t ;; Return (d :: ds))%py
      end
  end.

(** Rows of a frame made of four columns of one length. *)
Fixpoint rows (date : list Date) (ws wd sol : list float) : DataFrame :=
  match date, ws, wd, sol with
  | d :: date, a :: ws, b :: wd, c :: sol =>
      mkRow d a b c :: rows date ws wd sol
  | _, _, _, _ => []
  end.

(** [pd.DataFrame({'date': ..., 'wind_speed': ..., 'wind_direction': ...,
    'solar_irradiance': ...})]: columns of different lengths are refused
    with a [ValueError]. *)
Definition mkDataFrame (date : list Date) (ws wd sol : list float) : result DataFrame :=
  if ((length ws =? length date) && (length wd =? length date)
      && (length sol =? length date))%nat
  then Return (rows date ws wd sol)
  else Raise ValueError.

(** The body of the [try] from line 132 on: [Return None] is the [else]
    branch, reached when the expected structure is absent. *)
Definition parse (data : Body) : result (option DataFrame) :=
  (has_properties <- Py.contains "properties" data ;;
   has_parameter <-
     (if has_properties
      then (properties <- Py.getitem data "properties" ;;
            Py.contains "parameter" properties)
      else Return false) ;;
   if has_parameter then
     properties <- Py.getitem data "properties" ;;
     params <- Py.getitem properties "parameter" ;;
     wind_speed <- Py.get params "WS10M" (JDict []) ;;
     wind_direction <- Py.get params "WD10M" (JDict []) ;;
     solar_irradiance <- Py.get params "ALLSKY_SFC_SW_DWN" (JDict []) ;;
     keys <- Py.keys wind_speed ;;
     date <- to_datetime keys ;;
     ws <- Py.values wind_speed ;;
     wd <- Py.values wind_direction ;;
     sol <- Py.values solar_irradiance ;;
     df <- mkDataFrame date ws wd sol ;;
     Return (Some (replace (-999) NaN df))
   else Return None)%py.

Definition url (lat lon : Q) (year : Z) : Request :=
  {| parameters := ["WS10M"; "WD10M"; "ALLSKY_SFC_SW_DWN"]%string;
     community := "RE";
     longitude := lon;
     latitude := lat;
     start := mkDate year 1 1;
     end_ := mkDate year 12 31 |}.

(** [fetch_nasa_power_data] (lines 100-161) without its decorator, called at
    time [now]: the returned value and the messages shown. *)
Definition fetch_nasa_power_data (now : Z) (lat lon : Q) (year : Z)
  : option DataFrame * list st_error :=
  match (response <- requests_get now (url lat lon year) ;;
         _ <- raise_for_status response ;;
         data <- json_ response ;;
         parse data)%py
  with
  | Return (Some df) => (Some df, [])
  | Return None => (None, [UnexpectedFormat])
  | Raise e =>
      if is_RequestException e
      then (None, [ErrorFetching e])
      else (None, [ErrorProcessing e])
  end.

(** *** [@st.cache_data(ttl=3600)]

    The decorator keeps, per argument tuple, the returned value together
    with the messages to replay, and the time at which the entry expires;
    an entry is used as long as the clock is before that time. *)

Definition Key : Type := (Q * Q * Z)%type.

Definition key_eqb (a b : Key) : bool :=
  let '(lat1, lon1, year1) := a in
  let '(lat2, lon2, year2) := b in
  Qeq_bool lat1 lat2 && Qeq_bool lon1 lon2 && (year1 =? year2)%Z.

Definition Cached : Type := (option DataFrame * list st_error)%type.

Record Entry : Type := mkEntry { entry_key : Key; expires : Z; cached : Cached }.

Record World : Type := mkWorld {
  clock : Z;                 (* seconds *)
  cache : list Entry;
  sent : list Request        (* the GET requests issued so far, latest first *)
}.

Definition ttl : Z := 3600.

Fixpoint find (k : Key) (c : list Entry) : option Entry :=
  match c with
  | [] => None
  | e :: t => if key_eqb (entry_key e) k then Some e else find k t
  end.

Definition store (e : Entry) (c : list Entry) : list Entry :=
  e :: filter (fun e' => negb (key_eqb (entry_key e') (entry_key e))) c.

(** The world after a call that went to the API. *)
Definition after_miss (lat lon : Q) (year : Z) (w : World) : World :=
  {| clock := clock w;
     cache := store (mkEntry (lat, lon, year) (clock w + ttl)%Z
                       (fetch_nasa_power_data (clock w) lat lon year))
                (cache w);
     sent := url lat lon year :: sent w |}.

(** A call of the decorated function. *)
Definition cached_fetch (lat lon : Q) (year : Z) (w : World) : Cached * World :=
  let miss :=
    (fetch_nasa_power_data (clock w) lat lon year, after_miss lat lon year w) in
  match find (lat, lon, year) (cache w) with
  | Some e => if (clock w <? expires e)%Z then (cached e, w) else miss
  | None => miss
  end.

(** Time going by between two calls. *)
Definition advance (seconds : Z) (w : World) : World :=
  {| clock := (clock w + Z.max 0 seconds)%Z; cache := cache w; sent := sent w |}.

(** ** The analysis run (Phase VI, lines 270-388) *)

Record Analysis : Type := mkAnalysis {
  metrics : Metrics;
  wind_potential : wind_band;
  solar_potential : solar_band;
  wind_fig : Scatter;
  solar_fig : Scatter;
  wind_rose_fig : option WindRose;   (* [None]: "insufficient data" warning *)
  days : nat
}.

(** What is shown for the frame returned by the fetcher; [None] is the
    "Failed to retrieve data" branch. *)
Definition present (data_df : option DataFrame) : option Analysis :=
  match data_df with
  | None => None
  | Some df =>
      if empty df then None
      else
        let metrics := calculate_metrics df in
        Some {| metrics := metrics;
                wind_potential := wind_assessment (avg_wind_speed metrics);
                solar_potential := solar_assessment (avg_solar_radiation metrics);
                wind_fig := fst (create_time_series_charts df);
                solar_fig := snd (create_time_series_charts df);
                wind_rose_fig := create_wind_rose df;
                days := length df |}
  end.

(** Pressing the Analyze button. *)
Definition analyze (lat lon : Q) (year : Z) (w : World) : option Analysis * World :=
  let '(data_df, _, w') := cached_fetch lat lon year w in
  (present data_df, w').

(** *** Sessions: analyses and the time between them *)

Definition step (ev : event) (w : World) : World :=
  match ev with
  | Wait seconds => advance seconds w
  | Analyze lat lon year => snd (analyze lat lon year w)
  end.

Definition run (evs : list event) (w : World) : World :=
  fold_left (fun w ev => step ev w) evs w.

(** An event that is not an analysis of the tuple [k]. *)
Definition other_key (k : Key) (ev : event) : bool :=
  match ev with
  | Wait _ => true
  | Analyze lat lon year => negb (key_eqb (lat, lon, year) k)
  end.

End Fetcher.
(** ** Sidebar: the years offered for analysis (lines 49-55) *)

(** Python's [list(range(start, stop, step))] for a nonzero [step]. *)
Definition range (start stop step : Z) : list Z :=
  let n := if (0 <? step)%Z
           then ((stop - start + step - 1) / step)%Z
           else ((start - stop - step - 1) / (- step))%Z in
  map (fun i => (start + Z.of_nat i * step)%Z) (seq 0 (Z.to_nat n)).

(** [options=list(range(current_year - 1, current_year - 11, -1))] *)
Definition year_options (current_year : Z) : list Z :=
  range (current_year - 1) (current_year - 11) (-1).

(** [index=0]: the option selected when the page loads. *)
Definition default_year (current_year : Z) : option Z :=
  nth_error (year_options current_year) 0.

(** A cell of a cleaned frame: no longer the sentinel. *)
Definition not_sentinel (c : float) : bool := negb (Float.eqb c (Num sentinel)).



(** [isinstance(j, dict)] *)
Definition is_dict {A : Type} (j : json A) : bool :=
  match j with
  | JDict _ => true
  | _ => false
  end.

(** ** Sample series *)

Definition jan (d : Z) : Date := mkDate 2023 1 d.


(** Two cleaned days without any solar value, and two without any wind speed. *)
Definition no_solar_days : DataFrame :=
  [ mkRow (jan 1) (Num 2) (Num 90) NaN; mkRow (jan 2) (Num 4) (Num 180) NaN ].
Definition no_wind_days : DataFrame :=
  [ mkRow (jan 1) NaN (Num 90) (Num 1); mkRow (jan 2) NaN (Num 180) (Num 3) ].

(** ** Sample environments *)

Definition digit (a : ascii) : option Z :=
  let n := Z.of_N (N_of_ascii a) in
  if ((48 <=? n) && (n <=? 57))%Z then Some (n - 48)%Z else None.

(** Eight digits YYYYMMDD naming a month 1-12 and a day 1-31. *)
Definition ymd (key : string) : option Date :=
  match map digit (list_ascii_of_string key) with
  | [Some a; Some b; Some c; Some d; Some e; Some f; Some g; Some h] =>
      let m := (10 * e + f)%Z in
      let dd := (10 * g + h)%Z in
      if ((1 <=? m) && (m <=? 12) && (1 <=? dd) && (dd <=? 31))%Z
      then Some (mkDate (1000 * a + 100 * b + 10 * c + d) m dd)
      else None
  | _ => None
  end.

(** A well-formed body around three parameter series. *)
Definition body_of (ws wd sol : list (string * float)) : Body :=
  JDict [ ("type", JStr "Feature");
          ("properties",
           JDict [ ("parameter",
                    JDict [ ("WS10M", JDict ws);
                            ("WD10M", JDict wd);
                            ("ALLSKY_SFC_SW_DWN", JDict sol) ]) ]) ]%string.

(** An API that always answers 200 with the given body. *)
Definition api_ok (body : Body) : Environment :=
  {| requests_get := fun _ _ => Return (mkResponse 200 (Return body));
     strptime := ymd |}.



(** An API that answers 200 with a body that has no "properties". *)
Definition api_malformed : Environment :=
  api_ok (JDict [ ("messages", JList []) ]%string).

(** Wind direction lacks the second day. *)
Definition body_missing_day : Body :=
  body_of [ ("20230101", Num 5); ("20230102", Num 6) ]%string
          [ ("20230101", Num 180) ]%string
          [ ("20230101", Num 4); ("20230102", Num 4.5) ]%string.

(** Wind direction has 3 January where the others have 2 January. *)
Definition body_shifted_day : Body :=
  body_of [ ("20230101", Num 5); ("20230102", Num 6) ]%string
          [ ("20230101", Num 180); ("20230103", Num 90) ]%string
          [ ("20230101", Num 4); ("20230102", Num 4.5) ]%string.

(** The three series share their keys. *)
Definition body_aligned : Body :=
  body_of [ ("20230101", Num 5); ("20230102", Num 6) ]%string
          [ ("20230101", Num 180); ("20230102", Num 90) ]%string
          [ ("20230101", Num 4); ("20230102", Num 4.5) ]%string.

(** Two days, both with the sentinel as wind speed. *)
Definition body_no_wind : Body :=
  body_of [ ("20230101", Num (-999)); ("20230102", Num (-999)) ]%string
          [ ("20230101", Num 180); ("20230102", Num 90) ]%string
          [ ("20230101", Num 4); ("20230102", Num 4.5) ]%string.

Definition new_york : Q * Q := (40.7128, -74.0060).

(** A process that has just started, at time 0. *)
Definition boot : World := mkWorld 0 [] [].

(** ** More sample responses *)

(** The first wind-speed key is not of the form YYYYMMDD. *)
Definition body_bad_key : Body :=
  body_of [ ("2023-01-01", Num 5); ("20230102", Num 6) ]%string
          [ ("20230101", Num 180); ("20230102", Num 90) ]%string
          [ ("20230101", Num 4); ("20230102", Num 4.5) ]%string.

(** The expected structure around an empty "parameter" object. *)
Definition body_no_parameters : Body :=
  JDict [ ("properties", JDict [ ("parameter", JDict []) ]) ]%string.

(** "parameter" holds [null]. *)
Definition body_parameter_null : Body :=
  JDict [ ("properties", JDict [ ("parameter", JNull) ]) ]%string.

(** Two days, both without any solar value. *)
Definition body_no_solar : Body :=
  body_of [ ("20230101", Num 5); ("20230102", Num 6) ]%string
          [ ("20230101", Num 180); ("20230102", Num 90) ]%string
          [ ("20230101", Num (-999)); ("20230102", NaN) ]%string.

(** The frame of [body_aligned]. *)
Definition frame_aligned : DataFrame :=
  [ mkRow (jan 1) (Num 5) (Num 180) (Num 4);
    mkRow (jan 2) (Num 6) (Num 90) (Num 4.5) ].

(** An API that times out during the first minute and answers afterwards. *)
Definition api_recovering : Environment :=
  {| requests_get := fun now _ =>
       if (now <? 60)%Z then Raise Timeout
       else Return (mkResponse 200 (Return body_aligned));
     strptime := ymd |}.

(** ** Facts about float comparison *)

Lemma ltb_Num_true (x y : Q) : x < y -> (Num x <? Num y)%float = true.
Proof.
  intros H. cbn. destruct (Qle_bool y x) eqn:E; [|reflexivity].
  apply Qle_bool_iff in E. lra.
Qed.

Lemma ltb_Num_false (x y : Q) : y <= x -> (Num x <? Num y)%float = false.
Proof.
  intros H. cbn. apply Qle_bool_iff in H. now rewrite H.
Qed.

Lemma ltb_NaN_l (b : float) : (NaN <? b)%float = false.
Proof. reflexivity. Qed.

(** Decide one comparison of the chain, either way. *)
Ltac split_ltb x y :=
  let H := fresh "H" in
  destruct (Qlt_le_dec x y) as [H|H];
  [ rewrite (ltb_Num_true x y H) | rewrite (ltb_Num_false x y H) ].

Ltac chain_wind v :=
  unfold wind_assessment;
  split_ltb v 3; [|split_ltb v 5; [|split_ltb v 6.5; [|split_ltb v 7.5]]].

Ltac chain_solar s :=
  unfold solar_assessment;
  split_ltb s 3; [|split_ltb s 4; [|split_ltb s 5]].

(** ** Classifier theorems *)

(** C1: the wind classifier assigns Poor below 3, Marginal on [3,5), Fair on
    [5,6.5), Good on [6.5,7.5) and Excellent from 7.5 on; the solar classifier
    assigns Poor below 3, Fair on [3,4), Good on [4,5) and Excellent from 5 on;
    the boundary values 5.0, 6.5, 7.5 (wind) and 3.0, 5.0 (solar) fall in the
    upper band. *)
Theorem classifier_bands (v s : Q) :
  (v < 3 -> wind_assessment (Num v) = WindPoor) /\
  (3 <= v < 5 -> wind_assessment (Num v) = WindMarginal) /\
  (5 <= v < 6.5 -> wind_assessment (Num v) = WindFair) /\
  (6.5 <= v < 7.5 -> wind_assessment (Num v) = WindGood) /\
  (7.5 <= v -> wind_assessment (Num v) = WindExcellent) /\
  (s < 3 -> solar_assessment (Num s) = SolarPoor) /\
  (3 <= s < 4 -> solar_assessment (Num s) = SolarFair) /\
  (4 <= s < 5 -> solar_assessment (Num s) = SolarGood) /\
  (5 <= s -> solar_assessment (Num s) = SolarExcellent) /\
  wind_assessment (Num 5.0) = WindFair /\
  wind_assessment (Num 6.5) = WindGood /\
  wind_assessment (Num 7.5) = WindExcellent /\
  solar_assessment (Num 3.0) = SolarFair /\
  solar_assessment (Num 5.0) = SolarExcellent.
Proof.
  repeat split; try reflexivity; intros Hv.
  1-5: chain_wind v; first [reflexivity | lra].
  all: chain_solar s; first [reflexivity | lra].
Qed.

(** An average of 4 m/s and an irradiance of 4.5 kWh/m2/day. *)
Lemma classifier_bands_witness :
  wind_assessment (Num 4) = WindMarginal /\
  solar_assessment (Num 4.5) = SolarGood.
Proof.
  split.
  - apply (proj1 (proj2 (classifier_bands 4 4.5))). lra.
  - apply (proj1 (proj2 (proj2 (proj2 (proj2 (proj2 (proj2 (proj2
             (classifier_bands 4 4.5))))))))). lra.
Defined.

(** C10: both classifiers are monotone: a larger average never gets a lower
    band. *)
Theorem classifier_monotone (a b : Q) :
  a <= b ->
  (wind_rank (wind_assessment (Num a)) <= wind_rank (wind_assessment (Num b)))%nat /\
  (solar_rank (solar_assessment (Num a)) <= solar_rank (solar_assessment (Num b)))%nat.
Proof.
  intros Hab. split.
  - chain_wind a; chain_wind b; cbn; first [lia | lra].
  - chain_solar a; chain_solar b; cbn; first [lia | lra].
Qed.

Lemma classifier_monotone_witness :
  (wind_rank (wind_assessment (Num 4.9)) <= wind_rank (wind_assessment (Num 7)))%nat /\
  (solar_rank (solar_assessment (Num 4.9)) <= solar_rank (solar_assessment (Num 7)))%nat.
Proof.
  apply (classifier_monotone 4.9 7). lra.
Defined.
(** ** Cleaner *)

Lemma replace_cell_idem (q : Q) (c : float) :
  replace_cell q NaN (replace_cell q NaN c) = replace_cell q NaN c.
Proof.
  unfold replace_cell. now destruct (Float.eqb c (Num q)) eqn:E; [|rewrite E].
Qed.





(** C7: cleaning is a total function of the frame, and cleaning twice is
    cleaning once. *)
Theorem clean_idempotent (df : DataFrame) : clean (clean df) = clean df.
Proof.
  unfold clean, replace. rewrite map_map. apply map_ext. intros r. cbn.
  now rewrite !replace_cell_idem.
Qed.

(** ** Aggregator *)


Lemma dropna_all_NaN (col : list float) :
  Forall (fun c => c = NaN) col -> Series.dropna col = [].
Proof.
  induction 1 as [|c col Hc _ IH]; [reflexivity|]. subst c. exact IH.
Qed.












(** C2, as stated, fails for the total: over a series whose solar values
    are all missing [total_solar_energy] is 0, not NaN. *)
Lemma all_missing_total_is_zero :
  Forall (fun r => solar_irradiance r = NaN) no_solar_days /\
  total_solar_energy (calculate_metrics no_solar_days) = Num 0 /\
  total_solar_energy (calculate_metrics no_solar_days) <> NaN.
Proof.
  split; [repeat constructor|]. split; [reflexivity|discriminate].
Qed.

(** C2, amended: when every entry of a field is missing, its average and its
    maximum are NaN; the solar total is then 0. *)
Theorem all_missing_aggregates (df : DataFrame) :
  (Forall (fun r => wind_speed r = NaN) df ->
   avg_wind_speed (calculate_metrics df) = NaN /\
   max_wind_speed (calculate_metrics df) = NaN) /\
  (Forall (fun r => solar_irradiance r = NaN) df ->
   avg_solar_radiation (calculate_metrics df) = NaN /\
   max_solar_radiation (calculate_metrics df) = NaN /\
   total_solar_energy (calculate_metrics df) = Num 0).
Proof.
  split; intros H;
    (assert (E : Series.dropna (map (fun r => _ r) df) = [])
      by (apply dropna_all_NaN, Forall_map, H));
    cbn; unfold Series.mean, Series.max, Series.sum;
    change (fun r => ?f r) with f in E; rewrite E; repeat split; reflexivity.
Qed.

Lemma all_missing_aggregates_witness :
  (avg_wind_speed (calculate_metrics no_wind_days) = NaN /\
   max_wind_speed (calculate_metrics no_wind_days) = NaN) /\
  (avg_solar_radiation (calculate_metrics no_solar_days) = NaN /\
   max_solar_radiation (calculate_metrics no_solar_days) = NaN /\
   total_solar_energy (calculate_metrics no_solar_days) = Num 0).
Proof.
  split.
  - apply (proj1 (all_missing_aggregates no_wind_days)). repeat constructor.
  - apply (proj2 (all_missing_aggregates no_solar_days)). repeat constructor.
Defined.

(** ** Chart data shaper *)

Lemma In_dropna_wind (df : DataFrame) (s d : Q) :
  In (s, d) (dropna_wind df) <->
  exists r, In r df /\ wind_speed r = Num s /\ wind_direction r = Num d.
Proof.
  induction df as [|r df IH]; cbn.
  - split; [contradiction|]. now intros (r & [] & _).
  - destruct (wind_speed r) as [|s'] eqn:Es;
      [|destruct (wind_direction r) as [|d'] eqn:Ed]; cbn; rewrite ?IH.
    + split.
      * intros (r' & Hin & H). exists r'. auto.
      * intros (r' & [<-|Hin] & H1 & H2); [congruence|]. exists r'. auto.
    + split.
      * intros (r' & Hin & H). exists r'. auto.
      * intros (r' & [<-|Hin] & H1 & H2); [congruence|]. exists r'. auto.
    + split.
      * intros [E|(r' & Hin & H)].
        -- injection E as <- <-. exists r. auto.
        -- exists r'. auto.
      * intros (r' & [<-|Hin] & H1 & H2).
        -- left. congruence.
        -- right. exists r'. auto.
Qed.

Lemma dropna_wind_filter (df : DataFrame) :
  length (dropna_wind df) = length (filter (fun r => negb (incomplete r)) df).
Proof.
  induction df as [|r df IH]; [reflexivity|]. cbn. unfold incomplete.
  destruct (wind_speed r), (wind_direction r); cbn; now rewrite IH.
Qed.

Lemma dropna_wind_nil (df : DataFrame) :
  dropna_wind df = [] <->
  Forall (fun r => wind_speed r = NaN \/ wind_direction r = NaN) df.
Proof.
  induction df as [|r df IH]; cbn.
  - split; auto.
  - destruct (wind_speed r) as [|s] eqn:Es;
      [|destruct (wind_direction r) as [|d] eqn:Ed].
    + rewrite IH. split; [intros H; constructor; auto|now inversion 1].
    + rewrite IH. split; [intros H; constructor; auto|now inversion 1].
    + split; [discriminate|]. inversion 1 as [|? ? [?|?] ?]; congruence.
Qed.

Lemma combine_fst_snd {A B : Type} (l : list (A * B)) :
  combine (map fst l) (map snd l) = l.
Proof.
  induction l as [|[a b] l IH]; cbn; [reflexivity|now rewrite IH].
Qed.

Lemma create_wind_rose_None (df : DataFrame) :
  create_wind_rose df = None <-> dropna_wind df = [].
Proof.
  unfold create_wind_rose. destruct (dropna_wind df); cbn; split;
    congruence.
Qed.

(** C8: the wind-rose data keeps exactly the rows in which wind speed and
    wind direction are both present, and [create_wind_rose] answers [None]
    (insufficient data) when no row is left; the two time-series traces have
    one point per row of the frame, in the order of the frame, with a missing
    value kept as NaN at its place. *)
Theorem chart_projections (df : DataFrame) :
  (forall s d, In (s, d) (dropna_wind df) <->
     exists r, In r df /\ wind_speed r = Num s /\ wind_direction r = Num d) /\
  length (dropna_wind df) = length (filter (fun r => negb (incomplete r)) df) /\
  (create_wind_rose df = None <->
     Forall (fun r => wind_speed r = NaN \/ wind_direction r = NaN) df) /\
  (forall w, create_wind_rose df = Some w ->
     combine (var w) (direction w) = dropna_wind df /\ dropna_wind df <> []) /\
  let wind_fig := fst (create_time_series_charts df) in
  let solar_fig := snd (create_time_series_charts df) in
  length (scatter_x wind_fig) = length df /\
  length (scatter_y wind_fig) = length df /\
  length (scatter_x solar_fig) = length df /\
  length (scatter_y solar_fig) = length df /\
  (forall i r, nth_error df i = Some r ->
     nth_error (scatter_x wind_fig) i = Some (date r) /\
     nth_error (scatter_y wind_fig) i = Some (wind_speed r) /\
     nth_error (scatter_x solar_fig) i = Some (date r) /\
     nth_error (scatter_y solar_fig) i = Some (solar_irradiance r)) /\
  (forall before : Date -> Date -> Prop,
     StronglySorted before (map date df) ->
     StronglySorted before (scatter_x wind_fig) /\
     StronglySorted before (scatter_x solar_fig)).
Proof.
  split; [apply In_dropna_wind|].
  split; [apply dropna_wind_filter|].
  split; [now rewrite create_wind_rose_None, dropna_wind_nil|].
  split.
  { intros w. unfold create_wind_rose.
    destruct (dropna_wind df) as [|p l] eqn:E; cbn; [discriminate|].
    intros [= <-]. split; [|discriminate].
    apply (combine_fst_snd (p :: l)). }
  cbn. rewrite !length_map. repeat split; auto;
    now apply map_nth_error.
Qed.
(** ** Fetcher *)

Section FetcherFacts.

Context {env : Environment}.

Lemma to_datetime_length (keys : list string) (dates : list Date) :
  to_datetime keys = Return dates -> length dates = length keys.
Proof.
  revert dates. induction keys as [|k keys IH]; cbn; intros dates.
  - now intros [= <-].
  - destruct (strptime k); [|discriminate].
    destruct (to_datetime keys) as [ds|]; cbn; [|discriminate].
    intros [= <-]. cbn. now rewrite (IH ds).
Qed.

Lemma to_datetime_nth (keys : list string) (dates : list Date) (i : nat) (k : string) :
  to_datetime keys = Return dates -> nth_error keys i = Some k ->
  exists d, strptime k = Some d /\ nth_error dates i = Some d.
Proof.
  revert dates i. induction keys as [|k0 keys IH]; cbn; intros dates i.
  - now destruct i.
  - destruct (strptime k0) as [d0|] eqn:E0; [|discriminate].
    destruct (to_datetime keys) as [ds|]; cbn; [|discriminate].
    intros [= <-]. destruct i as [|i]; cbn.
    + intros [= <-]. eauto.
    + now apply IH.
Qed.

Lemma rows_nth (date : list Date) (ws wd sol : list float) (i : nat) d a b c :
  nth_error date i = Some d -> nth_error ws i = Some a ->
  nth_error wd i = Some b -> nth_error sol i = Some c ->
  nth_error (rows date ws wd sol) i = Some (mkRow d a b c).
Proof.
  revert ws wd sol i.
  induction date as [|d0 date IH]; intros [|a0 ws] [|b0 wd] [|c0 sol] [|i];
    cbn; try discriminate.
  - now intros [= ->] [= ->] [= ->] [= ->].
  - apply IH.
Qed.

Lemma clean_nth (df : DataFrame) (i : nat) d a b c :
  nth_error df i = Some (mkRow d a b c) ->
  nth_error (clean df) i
  = Some (mkRow d (replace_cell sentinel NaN a) (replace_cell sentinel NaN b)
            (replace_cell sentinel NaN c)).
Proof.
  intros H. unfold clean, replace.
  now rewrite nth_error_map, H.
Qed.

(** What the [try] body does with a body of the expected structure. *)
Lemma parse_expected (d : list (string * Properties))
  (p : list (string * Parameters)) (ps : list (string * DailyValues))
  (ws wd sol : list (string * float)) :
  Py.lookup "properties" d = Some (JDict p) ->
  Py.lookup "parameter" p = Some (JDict ps) ->
  Py.get (JDict ps) "WS10M" (JDict []) = Return (JDict ws) ->
  Py.get (JDict ps) "WD10M" (JDict []) = Return (JDict wd) ->
  Py.get (JDict ps) "ALLSKY_SFC_SW_DWN" (JDict []) = Return (JDict sol) ->
  parse (JDict d)
  = (date <- to_datetime (map fst ws) ;;
     df <- mkDataFrame date (map snd ws) (map snd wd) (map snd sol) ;;
     Return (Some (clean df)))%py.
Proof.
  intros Hd Hp Hws Hwd Hsol. unfold parse.
  cbn [Py.contains Py.getitem bind]. rewrite Hd. cbn [bind Py.contains Py.getitem].
  rewrite Hp. cbn [bind]. rewrite Hws, Hwd, Hsol. reflexivity.
Qed.

Lemma mkDataFrame_ok (date : list Date) (ws wd sol : list float) :
  length ws = length date -> length wd = length date ->
  length sol = length date ->
  mkDataFrame date ws wd sol = Return (rows date ws wd sol).
Proof.
  intros H1 H2 H3. unfold mkDataFrame.
  now rewrite H1, H2, H3, !Nat.eqb_refl.
Qed.

Lemma mkDataFrame_mismatch (date : list Date) (ws wd sol : list float) :
  length wd <> length date \/ length sol <> length date ->
  mkDataFrame date ws wd sol = Raise ValueError.
Proof.
  intros H. unfold mkDataFrame.
  destruct H as [H|H]; apply Nat.eqb_neq in H; rewrite H;
    now rewrite ?andb_false_r.
Qed.

Lemma fetch_unfold (now : Z) (lat lon : Q) (year : Z) (resp : Response) (data : Body) :
  requests_get now (url lat lon year) = Return resp ->
  raise_for_status resp = Return tt ->
  json_ resp = Return data ->
  fetch_nasa_power_data now lat lon year
  = match parse data with
    | Return (Some df) => (Some df, [])
    | Return None => (None, [UnexpectedFormat])
    | Raise e =>
        if is_RequestException e
        then (None, [ErrorFetching e])
        else (None, [ErrorProcessing e])
    end.
Proof.
  intros Hget Hst Hjson. unfold fetch_nasa_power_data.
  rewrite Hget. cbn [bind]. rewrite Hst. cbn [bind]. now rewrite Hjson.
Qed.

Lemma to_datetime_raises (keys : list string) (e : exn) :
  to_datetime keys = Raise e -> e = ValueError.
Proof.
  induction keys as [|k keys IH]; cbn; [discriminate|].
  destruct (strptime k); [|now intros [= <-]].
  destruct (to_datetime keys); cbn; [discriminate|].
  intros [= <-]. now apply IH.
Qed.

Lemma rows_length (date : list Date) (ws wd sol : list float) :
  length ws = length date -> length wd = length date ->
  length sol = length date ->
  length (rows date ws wd sol) = length date.
Proof.
  revert ws wd sol.
  induction date as [|d date IH]; intros [|a ws] [|b wd] [|c sol];
    cbn; try discriminate; try reflexivity.
  intros [= H1] [= H2] [= H3]. now rewrite IH.
Qed.

(** C5, amended: for a response of the expected structure the three series
    are paired by position under the wind-speed keys. When they have the
    same number of entries (and the wind-speed keys are dates) the fetcher
    returns a frame whose i-th row has the date of the i-th wind-speed key
    and the i-th value of each series, cleaned, whatever the keys of the
    other two series; when they differ in length it returns [None] after
    an "Error processing data" message. *)
Theorem fetcher_pairs_by_position (now : Z) (lat lon : Q) (year : Z)
  (resp : Response) (d : list (string * Properties))
  (p : list (string * Parameters)) (ps : list (string * DailyValues))
  (ws wd sol : list (string * float)) :
  requests_get now (url lat lon year) = Return resp ->
  raise_for_status resp = Return tt ->
  json_ resp = Return (JDict d) ->
  Py.lookup "properties" d = Some (JDict p) ->
  Py.lookup "parameter" p = Some (JDict ps) ->
  Py.get (JDict ps) "WS10M" (JDict []) = Return (JDict ws) ->
  Py.get (JDict ps) "WD10M" (JDict []) = Return (JDict wd) ->
  Py.get (JDict ps) "ALLSKY_SFC_SW_DWN" (JDict []) = Return (JDict sol) ->
  (forall dates,
      length wd = length ws -> length sol = length ws ->
      to_datetime (map fst ws) = Return dates ->
      exists df,
        fetch_nasa_power_data now lat lon year = (Some df, []) /\
        length df = length ws /\
        (forall i k v k' v' k'' v'',
            nth_error ws i = Some (k, v) ->
            nth_error wd i = Some (k', v') ->
            nth_error sol i = Some (k'', v'') ->
            exists day,
              strptime k = Some day /\
              nth_error df i
              = Some (mkRow day (replace_cell sentinel NaN v)
                        (replace_cell sentinel NaN v')
                        (replace_cell sentinel NaN v'')))) /\
  (length wd <> length ws \/ length sol <> length ws ->
   fetch_nasa_power_data now lat lon year = (None, [ErrorProcessing ValueError])).
Proof.
  intros Hget Hst Hjson Hd Hp Hws Hwd Hsol.
  rewrite (fetch_unfold _ _ _ _ _ _ Hget Hst Hjson).
  rewrite (parse_expected _ _ _ _ _ _ Hd Hp Hws Hwd Hsol).
  split.
  - intros dates Lwd Lsol Hdates.
    pose proof (to_datetime_length _ _ Hdates) as Ldates.
    rewrite length_map in Ldates.
    rewrite Hdates. cbn [bind].
    rewrite mkDataFrame_ok by (rewrite !length_map; congruence).
    cbn [bind]. eexists. split; [reflexivity|]. split.
    + unfold clean, replace. rewrite length_map, rows_length;
        rewrite ?length_map; congruence.
    + intros i k v k' v' k'' v'' Hi Hi' Hi''.
      destruct (to_datetime_nth (map fst ws) dates i k Hdates) as (day & Hk & Hday).
      { now rewrite nth_error_map, Hi. }
      exists day. split; [exact Hk|].
      apply clean_nth, rows_nth; try assumption.
      * now rewrite nth_error_map, Hi.
      * now rewrite nth_error_map, Hi'.
      * now rewrite nth_error_map, Hi''.
  - intros Hlen.
    destruct (to_datetime (map fst ws)) as [dates|e] eqn:Hdates; cbn [bind].
    + pose proof (to_datetime_length _ _ Hdates) as Ldates.
      rewrite length_map in Ldates.
      rewrite mkDataFrame_mismatch; [reflexivity|].
      rewrite !length_map, Ldates. exact Hlen.
    + now rewrite (to_datetime_raises _ _ Hdates).
Qed.

End FetcherFacts.

Lemma fetcher_pairs_by_position_witness :
  exists df,
    @fetch_nasa_power_data (api_ok body_aligned) 0 40.7128 (-74.0060) 2023
    = (Some df, []) /\ length df = 2%nat.
Proof.
  destruct (proj1 (@fetcher_pairs_by_position (api_ok body_aligned)
                     0 40.7128 (-74.0060) 2023 _ _ _ _ _ _ _
                     eq_refl eq_refl eq_refl eq_refl eq_refl eq_refl eq_refl
                     eq_refl)
              [jan 1; jan 2] eq_refl eq_refl eq_refl) as (df & H1 & H2 & _).
  exists df. split; assumption.
Defined.

(** C5, as stated, fails: with wind direction lacking a day that the other
    two series have, the fetcher returns no frame at all; and with wind
    direction holding another day instead, the value of that other day is
    paired with the day of the wind-speed key, not marked missing. *)
Lemma fetcher_does_not_align_by_date :
  fst (@fetch_nasa_power_data (api_ok body_missing_day) 0 40.7128 (-74.0060) 2023)
  = None /\
  fst (@fetch_nasa_power_data (api_ok body_shifted_day) 0 40.7128 (-74.0060) 2023)
  = Some [ mkRow (jan 1) (Num 5) (Num 180) (Num 4);
           mkRow (jan 2) (Num 6) (Num 90) (Num 4.5) ].
Proof. split; vm_compute; reflexivity. Qed.
Section FetcherOutcomes.

Context {env : Environment}.


End FetcherOutcomes.


(** ** The cache *)

Lemma key_eqb_refl (k : Key) : key_eqb k k = true.
Proof.
  destruct k as [[lat lon] year]. cbn.
  rewrite Z.eqb_refl, !andb_true_r.
  apply andb_true_iff; split; apply Qeq_bool_iff; reflexivity.
Qed.

Lemma key_eqb_spec (a b : Key) :
  key_eqb a b = true <->
  fst (fst a) == fst (fst b) /\ snd (fst a) == snd (fst b) /\ snd a = snd b.
Proof.
  destruct a as [[lat1 lon1] y1], b as [[lat2 lon2] y2]. cbn.
  rewrite !andb_true_iff, !Qeq_bool_iff, Z.eqb_eq. tauto.
Qed.

Lemma key_eqb_common (a k k' : Key) :
  key_eqb a k = true -> key_eqb a k' = true -> key_eqb k' k = true.
Proof.
  rewrite !key_eqb_spec. intros (H1 & H2 & H3) (H1' & H2' & H3').
  repeat split; [rewrite <- H1', H1|rewrite <- H2', H2|]; try reflexivity.
  congruence.
Qed.

Lemma find_store_same (e : Entry) (c : list Entry) :
  find (entry_key e) (store e c) = Some e.
Proof. cbn. now rewrite key_eqb_refl. Qed.

Lemma find_store_other (k : Key) (e : Entry) (c : list Entry) :
  key_eqb (entry_key e) k = false ->
  find k (store e c) = find k c.
Proof.
  intros Hk. cbn. rewrite Hk.
  induction c as [|e0 c IH]; [reflexivity|]. cbn.
  destruct (key_eqb (entry_key e0) k) eqn:E0.
  - destruct (key_eqb (entry_key e0) (entry_key e)) eqn:E1; cbn.
    + rewrite (key_eqb_common _ _ _ E0 E1) in Hk. discriminate.
    + now rewrite E0.
  - destruct (key_eqb (entry_key e0) (entry_key e)); cbn;
      [|rewrite E0]; exact IH.
Qed.

Lemma cons_neq {A : Type} (a : A) (l : list A) : l <> a :: l.
Proof.
  intros H. apply (f_equal (@length A)) in H. cbn in H. lia.
Qed.

Section CacheFacts.

Context {env : Environment}.

Lemma cached_fetch_hit (lat lon : Q) (year : Z) (w : World) (e : Entry) :
  find (lat, lon, year) (cache w) = Some e ->
  (clock w < expires e)%Z ->
  cached_fetch lat lon year w = (cached e, w).
Proof.
  intros Hf Ht. unfold cached_fetch. rewrite Hf.
  apply Z.ltb_lt in Ht. now rewrite Ht.
Qed.


Lemma cached_fetch_cases (lat lon : Q) (year : Z) (w : World) :
  snd (cached_fetch lat lon year w) = w \/
  cached_fetch lat lon year w
  = (fetch_nasa_power_data (clock w) lat lon year, after_miss lat lon year w).
Proof.
  unfold cached_fetch.
  destruct (find (lat, lon, year) (cache w)) as [e|]; [|now right].
  destruct (clock w <? expires e)%Z; [now left|now right].
Qed.

Lemma analyze_cached_fetch (lat lon : Q) (year : Z) (w : World) :
  analyze lat lon year w
  = (present (fst (fst (cached_fetch lat lon year w))),
     snd (cached_fetch lat lon year w)).
Proof.
  unfold analyze. now destruct (cached_fetch lat lon year w) as [[df shown] w'].
Qed.

Lemma step_keeps_entry (k : Key) (e : Entry) (ev : event) (w : World) :
  other_key k ev = true ->
  find k (cache w) = Some e ->
  find k (cache (step ev w)) = Some e.
Proof.
  destruct ev as [s|lat lon year]; cbn [other_key step]; intros Hk Hf.
  - exact Hf.
  - rewrite analyze_cached_fetch. cbn [snd].
    destruct (cached_fetch_cases lat lon year w) as [-> | ->]; [exact Hf|].
    cbn [snd after_miss cache]. rewrite find_store_other; [exact Hf|].
    cbn. now apply negb_true_iff.
Qed.

Lemma run_keeps_entry (k : Key) (e : Entry) (evs : list event) (w : World) :
  forallb (other_key k) evs = true ->
  find k (cache w) = Some e ->
  find k (cache (run evs w)) = Some e.
Proof.
  revert w. induction evs as [|ev evs IH]; intros w; cbn [forallb run fold_left].
  - auto.
  - intros H Hf. apply andb_true_iff in H as [Hev Hevs].
    apply (IH (step ev w) Hevs). now apply step_keeps_entry.
Qed.


End CacheFacts.

(** ** The analysis run on a series without wind speed *)

Lemma wind_assessment_NaN : wind_assessment NaN = WindExcellent.
Proof. reflexivity. Qed.

(** C3: what the code does when every wind speed of the response is the
    sentinel: the average wind speed is NaN, the classifier is run on it and
    the site is reported as Excellent for wind. *)
Lemma no_wind_data_rated_excellent :
  let a := fst (@analyze (api_ok body_no_wind) 40.7128 (-74.0060) 2023 boot) in
  option_map (fun a => avg_wind_speed (metrics a)) a = Some NaN /\
  option_map (fun a => max_wind_speed (metrics a)) a = Some NaN /\
  option_map wind_potential a = Some WindExcellent.
Proof. repeat split; vm_compute; reflexivity. Qed.

(** The end-to-end example of the specification: wind 2, 4, 6 and solar
    1, 3, 5 give averages 4 and 3, maxima 6 and 5, total 9, Marginal wind and
    Fair solar. *)
Example three_days :
  let df := [ mkRow (jan 1) (Num 2) (Num 90) (Num 1);
              mkRow (jan 2) (Num 4) (Num 180) (Num 3);
              mkRow (jan 3) (Num 6) (Num 270) (Num 5) ] in
  let m := calculate_metrics df in
  Float.eqb (avg_wind_speed m) (Num 4) = true /\
  Float.eqb (max_wind_speed m) (Num 6) = true /\
  Float.eqb (avg_solar_radiation m) (Num 3) = true /\
  Float.eqb (max_solar_radiation m) (Num 5) = true /\
  Float.eqb (total_solar_energy m) (Num 9) = true /\
  wind_assessment (avg_wind_speed m) = WindMarginal /\
  solar_assessment (avg_solar_radiation m) = SolarFair.
Proof. repeat split; vm_compute; reflexivity. Qed.
(** * Further properties of the code *)

(** ** Year selection *)

(** X1: the sidebar offers the ten years before the current one, most recent
    first, and starts on the previous year; the current year and later years
    are never offered. *)
Theorem year_options_spec (current_year : Z) :
  length (year_options current_year) = 10%nat /\
  (forall y, In y (year_options current_year) <->
             (current_year - 10 <= y <= current_year - 1)%Z) /\
  default_year current_year = Some (current_year - 1)%Z /\
  StronglySorted Z.gt (year_options current_year).
Proof.
  unfold default_year, year_options, range. cbn [Z.ltb Z.compare].
  replace ((current_year - 1 - (current_year - 11) - -1 - 1) / - -1)%Z
    with 10%Z by (rewrite Z.div_1_r; lia).
  change (Z.to_nat 10) with 10%nat. cbn [seq map length nth_error In].
  split; [reflexivity|].
  split; [|split].
  - intros y. split.
    + intros H. decompose [or] H; try contradiction; lia.
    + intros [H1 H2]. lia.
  - f_equal. lia.
  - repeat constructor; lia.
Qed.

(** ** Aggregates *)



Lemma fold_Qmax_mem (l : list Q) (a : Q) : In (fold_left Qmax l a) (a :: l).
Proof.
  revert a. induction l as [|q l IH]; intros a; cbn; [now left|].
  destruct (IH (Qmax a q)) as [H|H].
  - rewrite <- H. unfold Qmax, GenericMinMax.gmax.
    destruct (a ?= q); auto.
  - auto.
Qed.





Lemma dropna_nil_iff (col : list float) :
  Series.dropna col = [] <-> Forall (fun c => c = NaN) col.
Proof.
  split; [|apply dropna_all_NaN].
  induction col as [|[|q] col IH]; cbn; intros H.
  - constructor.
  - constructor; auto.
  - discriminate.
Qed.

Lemma mean_NaN_iff (col : list float) :
  Series.mean col = NaN <-> Forall (fun c => c = NaN) col.
Proof.
  rewrite <- dropna_nil_iff. unfold Series.mean.
  destruct (Series.dropna col); split; congruence.
Qed.


(** ** Cleaner, continued *)

Lemma replace_cell_cases (c : float) :
  (replace_cell sentinel NaN c = c /\ Float.eqb c (Num sentinel) = false) \/
  (replace_cell sentinel NaN c = NaN /\ Float.eqb c (Num sentinel) = true).
Proof.
  unfold replace_cell. destruct (Float.eqb c (Num sentinel)); auto.
Qed.

Lemma replace_cell_not_sentinel (c : float) :
  not_sentinel (replace_cell sentinel NaN c) = true.
Proof.
  unfold not_sentinel.
  destruct (replace_cell_cases c) as [[-> ->]|[-> _]]; reflexivity.
Qed.

Lemma clean_cells (df : DataFrame) (r : row) :
  In r (clean df) ->
  not_sentinel (wind_speed r) = true /\
  not_sentinel (wind_direction r) = true /\
  not_sentinel (solar_irradiance r) = true.
Proof.
  unfold clean, replace. rewrite in_map_iff. intros (r0 & <- & _). cbn.
  repeat split; apply replace_cell_not_sentinel.
Qed.

(** X4: cleaning keeps the number of rows and their dates, leaves no cell
    equal to -999, and changes a cell only from -999 to NaN. *)
Theorem clean_postcondition (df : DataFrame) :
  length (clean df) = length df /\
  map date (clean df) = map date df /\
  (forall r, In r (clean df) ->
     not_sentinel (wind_speed r) = true /\
     not_sentinel (wind_direction r) = true /\
     not_sentinel (solar_irradiance r) = true) /\
  (forall i r, nth_error df i = Some r ->
     exists r', nth_error (clean df) i = Some r' /\
       date r' = date r /\
       (wind_speed r' = wind_speed r \/
        Float.eqb (wind_speed r) (Num sentinel) = true /\ wind_speed r' = NaN) /\
       (wind_direction r' = wind_direction r \/
        Float.eqb (wind_direction r) (Num sentinel) = true /\ wind_direction r' = NaN) /\
       (solar_irradiance r' = solar_irradiance r \/
        Float.eqb (solar_irradiance r) (Num sentinel) = true /\
        solar_irradiance r' = NaN)).
Proof.
  split; [apply length_map|].
  split; [unfold clean, replace; rewrite map_map; reflexivity|].
  split; [apply clean_cells|].
  intros i r Hi. unfold clean, replace. rewrite nth_error_map, Hi. cbn.
  eexists. split; [reflexivity|]. cbn. split; [reflexivity|].
  repeat split.
  - destruct (replace_cell_cases (wind_speed r)) as [[H _]|[H H']]; auto.
  - destruct (replace_cell_cases (wind_direction r)) as [[H _]|[H H']]; auto.
  - destruct (replace_cell_cases (solar_irradiance r)) as [[H _]|[H H']]; auto.
Qed.

(** ** Fetcher, continued *)

Section FetcherStructure.

Context {env : Environment}.

Lemma lookup_Some_contains {A : Type} (key : string) (d : list (string * A)) (v : A) :
  Py.lookup key d = Some v ->
  Py.contains key (JDict d) = Return true /\ Py.getitem (JDict d) key = Return v.
Proof. intros H. cbn. now rewrite H. Qed.

Lemma mkDataFrame_inv (date : list Date) (ws wd sol : list float) (df : DataFrame) :
  mkDataFrame date ws wd sol = Return df ->
  length ws = length date /\ length wd = length date /\
  length sol = length date /\ df = rows date ws wd sol.
Proof.
  unfold mkDataFrame.
  destruct (length ws =? length date)%nat eqn:E1; [|discriminate].
  destruct (length wd =? length date)%nat eqn:E2; [|discriminate].
  destruct (length sol =? length date)%nat eqn:E3; [|discriminate].
  cbn. intros [= <-].
  apply Nat.eqb_eq in E1, E2, E3. auto.
Qed.

(** A frame comes out of the [try] body only for the expected structure. *)
Lemma parse_Some_inv (data : Body) (df : DataFrame) :
  parse data = Return (Some df) ->
  exists (d : list (string * Properties)) (p : list (string * Parameters))
         (ps : list (string * DailyValues)) (ws wd sol : list (string * float))
         (dates : list Date),
    data = JDict d /\
    Py.lookup "properties" d = Some (JDict p) /\
    Py.lookup "parameter" p = Some (JDict ps) /\
    Py.get (JDict ps) "WS10M" (JDict []) = Return (JDict ws) /\
    Py.get (JDict ps) "WD10M" (JDict []) = Return (JDict wd) /\
    Py.get (JDict ps) "ALLSKY_SFC_SW_DWN" (JDict []) = Return (JDict sol) /\
    to_datetime (map fst ws) = Return dates /\
    length wd = length ws /\ length sol = length ws /\
    df = clean (rows dates (map snd ws) (map snd wd) (map snd sol)).
Proof.
  unfold parse. intros H.
  destruct data as [|b|q|s|l|d]; cbn in H; try discriminate.
  - destruct (String.index 0 "properties" s); cbn in H; discriminate.
  - destruct (existsb _ l); cbn in H; discriminate.
  - destruct (Py.lookup "properties" d) as [props|] eqn:Hd; cbn in H;
      [|discriminate].
    destruct props as [|b|q|s|l|p]; cbn in H; try discriminate.
    + destruct (String.index 0 "parameter" s); cbn in H; discriminate.
    + destruct (existsb _ l); cbn in H; discriminate.
    + destruct (Py.lookup "parameter" p) as [params|] eqn:Hp; cbn in H;
        [|discriminate].
      destruct params as [|b|q|s|l|ps]; cbn in H; try discriminate.
      remember (match Py.lookup "WS10M" ps with Some v => v | None => JDict [] end)
        as ws0 eqn:Ews.
      remember (match Py.lookup "WD10M" ps with Some v => v | None => JDict [] end)
        as wd0 eqn:Ewd.
      remember (match Py.lookup "ALLSKY_SFC_SW_DWN" ps with
                | Some v => v | None => JDict [] end) as sol0 eqn:Esol.
      destruct ws0 as [|b|q|s|l|ws]; cbn in H; try discriminate.
      destruct (to_datetime (map fst ws)) as [dates|] eqn:Hdates; cbn in H;
        [|discriminate].
      destruct wd0 as [|b|q|s|l|wd]; cbn in H; try discriminate.
      destruct sol0 as [|b|q|s|l|sol]; cbn in H; try discriminate.
      destruct (mkDataFrame dates (map snd ws) (map snd wd) (map snd sol))
        as [df0|] eqn:Hdf; cbn in H; [|discriminate].
      injection H as <-.
      apply mkDataFrame_inv in Hdf as (L1 & L2 & L3 & ->).
      pose proof (to_datetime_length _ _ Hdates) as Ld.
      rewrite !length_map in *.
      exists d, p, ps, ws, wd, sol, dates.
      split; [reflexivity|]. split; [exact Hd|]. split; [exact Hp|].
      split; [cbn; now rewrite <- Ews|].
      split; [cbn; now rewrite <- Ewd|].
      split; [cbn; now rewrite <- Esol|].
      split; [exact Hdates|].
      split; [congruence|]. split; [congruence|]. reflexivity.
Qed.

Lemma fetch_Some_inv (now : Z) (lat lon : Q) (year : Z) (df : DataFrame)
  (shown : list st_error) :
  fetch_nasa_power_data now lat lon year = (Some df, shown) ->
  shown = [] /\
  exists resp data,
    requests_get now (url lat lon year) = Return resp /\
    raise_for_status resp = Return tt /\
    json_ resp = Return data /\
    parse data = Return (Some df).
Proof.
  unfold fetch_nasa_power_data.
  destruct (requests_get now (url lat lon year)) as [resp|e] eqn:Hget;
    cbn [bind]; [|destruct (is_RequestException e); discriminate].
  destruct (raise_for_status resp) as [[]|e] eqn:Hst;
    cbn [bind]; [|destruct (is_RequestException e); discriminate].
  destruct (json_ resp) as [data|e] eqn:Hjson;
    cbn [bind]; [|destruct (is_RequestException e); discriminate].
  destruct (parse data) as [[df0|]|e] eqn:Hparse;
    [| discriminate | destruct (is_RequestException e); discriminate].
  intros [= <- <-]. split; [reflexivity|]. exists resp, data. auto.
Qed.

Lemma raise_for_status_ok (resp : Response) :
  raise_for_status resp = Return tt <->
  (status_code resp < 400 \/ 600 <= status_code resp)%Z.
Proof.
  unfold raise_for_status.
  destruct (400 <=? status_code resp)%Z eqn:E1;
    destruct (status_code resp <? 600)%Z eqn:E2; cbn;
    rewrite ?Z.leb_le, ?Z.leb_gt, ?Z.ltb_lt, ?Z.ltb_ge in *;
    split; intros H; try discriminate; try reflexivity; lia.
Qed.

(** X5: the fetcher returns a frame only when the request got a response
    whose status is outside 400-599 and whose body is an object holding
    "properties", itself an object holding "parameter", itself an object in
    which each of the three series is an object (or absent); the wind-speed
    keys are then all dates, the three series have the same number of
    entries, the frame is the cleaned positional pairing of their values,
    and nothing is shown. *)
Theorem fetcher_success_structure (now : Z) (lat lon : Q) (year : Z)
  (df : DataFrame) (shown : list st_error) :
  fetch_nasa_power_data now lat lon year = (Some df, shown) ->
  shown = [] /\
  exists resp (d : list (string * Properties)) (p : list (string * Parameters))
         (ps : list (string * DailyValues)) (ws wd sol : list (string * float))
         (dates : list Date),
    requests_get now (url lat lon year) = Return resp /\
    (status_code resp < 400 \/ 600 <= status_code resp)%Z /\
    json_ resp = Return (JDict d) /\
    Py.lookup "properties" d = Some (JDict p) /\
    Py.lookup "parameter" p = Some (JDict ps) /\
    Py.get (JDict ps) "WS10M" (JDict []) = Return (JDict ws) /\
    Py.get (JDict ps) "WD10M" (JDict []) = Return (JDict wd) /\
    Py.get (JDict ps) "ALLSKY_SFC_SW_DWN" (JDict []) = Return (JDict sol) /\
    to_datetime (map fst ws) = Return dates /\
    length wd = length ws /\ length sol = length ws /\
    df = clean (rows dates (map snd ws) (map snd wd) (map snd sol)).
Proof.
  intros H.
  destruct (fetch_Some_inv _ _ _ _ _ _ H) as (-> & resp & data & Hget & Hst & Hjson & Hp).
  split; [reflexivity|].
  destruct (parse_Some_inv _ _ Hp)
    as (d & p & ps & ws & wd & sol & dates & -> & H1 & H2 & H3 & H4 & H5 & H6 & H7 & H8 & H9).
  exists resp, d, p, ps, ws, wd, sol, dates.
  apply raise_for_status_ok in Hst. repeat split; assumption.
Qed.

(** X6: no frame returned by the fetcher holds the value -999, whatever the
    response was. *)
Theorem fetched_frame_is_clean (now : Z) (lat lon : Q) (year : Z)
  (df : DataFrame) (shown : list st_error) :
  fetch_nasa_power_data now lat lon year = (Some df, shown) ->
  (forall r, In r df ->
     not_sentinel (wind_speed r) = true /\
     not_sentinel (wind_direction r) = true /\
     not_sentinel (solar_irradiance r) = true).
Proof.
  intros H.
  destruct (fetch_Some_inv _ _ _ _ _ _ H) as (_ & resp & data & _ & _ & _ & Hp).
  destruct (parse_Some_inv _ _ Hp)
    as (d & p & ps & ws & wd & sol & dates & _ & _ & _ & _ & _ & _ & _ & _ & _ & ->).
  apply clean_cells.
Qed.

End FetcherStructure.

Lemma fetcher_success_structure_witness :
  exists resp,
    @requests_get (api_ok body_aligned) 0 (@url 40.7128 (-74.0060) 2023) = Return resp /\
    (status_code resp < 400 \/ 600 <= status_code resp)%Z.
Proof.
  destruct (@fetcher_success_structure (api_ok body_aligned) 0 40.7128 (-74.0060)
              2023 frame_aligned [] eq_refl)
    as (_ & resp & d & p & ps & ws & wd & sol & dates & H1 & H2 & _).
  exists resp. split; assumption.
Defined.

Lemma fetched_frame_is_clean_witness :
  not_sentinel (wind_speed (mkRow (jan 1) (Num 5) (Num 180) (Num 4))) = true.
Proof.
  apply (@fetched_frame_is_clean (api_ok body_aligned) 0 40.7128 (-74.0060)
           2023 frame_aligned [] eq_refl (mkRow (jan 1) (Num 5) (Num 180) (Num 4))).
  left. reflexivity.
Defined.
Section FetcherEdges.

Context {env : Environment}.

Lemma to_datetime_bad_key (keys : list string) (k : string) :
  In k keys -> strptime k = None -> to_datetime keys = Raise ValueError.
Proof.
  induction keys as [|k0 keys IH]; cbn; [contradiction|].
  intros [->|Hin] Hk.
  - now rewrite Hk.
  - destruct (strptime k0); [|reflexivity]. now rewrite IH.
Qed.

(** X7: one wind-speed key that is not a date makes the whole fetch fail:
    the fetcher returns [None] after an "Error processing data" message,
    however many good days the response holds. *)
Theorem fetcher_rejects_bad_key (now : Z) (lat lon : Q) (year : Z)
  (resp : Response) (d : list (string * Properties))
  (p : list (string * Parameters)) (ps : list (string * DailyValues))
  (ws wd sol : list (string * float)) (k : string) :
  requests_get now (url lat lon year) = Return resp ->
  raise_for_status resp = Return tt ->
  json_ resp = Return (JDict d) ->
  Py.lookup "properties" d = Some (JDict p) ->
  Py.lookup "parameter" p = Some (JDict ps) ->
  Py.get (JDict ps) "WS10M" (JDict []) = Return (JDict ws) ->
  Py.get (JDict ps) "WD10M" (JDict []) = Return (JDict wd) ->
  Py.get (JDict ps) "ALLSKY_SFC_SW_DWN" (JDict []) = Return (JDict sol) ->
  In k (map fst ws) -> strptime k = None ->
  fetch_nasa_power_data now lat lon year = (None, [ErrorProcessing ValueError]).
Proof.
  intros Hget Hst Hjson Hd Hp Hws Hwd Hsol Hin Hk.
  rewrite (fetch_unfold _ _ _ _ _ _ Hget Hst Hjson).
  rewrite (parse_expected _ _ _ _ _ _ Hd Hp Hws Hwd Hsol).
  now rewrite (to_datetime_bad_key _ _ Hin Hk).
Qed.

(** X8: a body that is not a JSON object never yields a frame. For [null],
    a boolean or a number the membership test raises and "Error processing
    data" is shown; for a list or a string the message is "Unexpected data
    format from API", unless the list has the element "properties" or the
    string contains it, in which case indexing raises and "Error processing
    data" is shown; an object without "properties" gives "Unexpected data
    format from API". *)
Theorem fetcher_non_object_body (now : Z) (lat lon : Q) (year : Z)
  (resp : Response) (data : Body) :
  requests_get now (url lat lon year) = Return resp ->
  raise_for_status resp = Return tt ->
  json_ resp = Return data ->
  match data with
  | JNull | JBool _ | JNum _ =>
      fetch_nasa_power_data now lat lon year = (None, [ErrorProcessing TypeError])
  | JStr s =>
      fetch_nasa_power_data now lat lon year
      = (None, [match String.index 0 "properties" s with
                | Some _ => ErrorProcessing TypeError
                | None => UnexpectedFormat
                end])
  | JList l =>
      fetch_nasa_power_data now lat lon year
      = (None, [if existsb (fun e => match e with
                                     | JStr s => String.eqb s "properties"
                                     | _ => false
                                     end) l
                then ErrorProcessing TypeError else UnexpectedFormat])
  | JDict d =>
      Py.lookup "properties" d = None ->
      fetch_nasa_power_data now lat lon year = (None, [UnexpectedFormat])
  end.
Proof.
  intros Hget Hst Hjson.
  rewrite (fetch_unfold _ _ _ _ _ _ Hget Hst Hjson). unfold parse.
  destruct data as [|b|q|s|l|d]; cbn; try reflexivity.
  - now destruct (String.index 0 "properties" s).
  - now destruct (existsb _ l).
  - now intros ->.
Qed.

(** X9: when "parameter" is not an object, or the wind-speed series is
    present but not an object, the fetcher returns [None] after an "Error
    processing data" message (an AttributeError). *)
Theorem fetcher_non_object_parameter (now : Z) (lat lon : Q) (year : Z)
  (resp : Response) (d : list (string * Properties))
  (p : list (string * Parameters)) (params : Parameters) :
  requests_get now (url lat lon year) = Return resp ->
  raise_for_status resp = Return tt ->
  json_ resp = Return (JDict d) ->
  Py.lookup "properties" d = Some (JDict p) ->
  Py.lookup "parameter" p = Some params ->
  (is_dict params = false \/
   exists ps v, params = JDict ps /\ Py.lookup "WS10M" ps = Some v /\
                is_dict v = false) ->
  fetch_nasa_power_data now lat lon year = (None, [ErrorProcessing AttributeError]).
Proof.
  intros Hget Hst Hjson Hd Hp Hbad.
  rewrite (fetch_unfold _ _ _ _ _ _ Hget Hst Hjson). unfold parse.
  cbn [Py.contains Py.getitem bind]. rewrite Hd.
  cbn [Py.contains Py.getitem bind]. rewrite Hp. cbn [bind].
  destruct Hbad as [Hnd|(ps & v & -> & Hv & Hnd)].
  - destruct params; cbn in Hnd; try discriminate; reflexivity.
  - cbn [Py.get bind]. rewrite Hv.
    destruct v; cbn in Hnd; try discriminate; reflexivity.
Qed.

(** X10: when "parameter" holds none of the three series, the fetcher shows
    nothing and returns a frame without rows, which the analysis run treats
    like a failed fetch ("Failed to retrieve data"). *)
Theorem fetcher_no_series (now : Z) (lat lon : Q) (year : Z)
  (resp : Response) (d : list (string * Properties))
  (p : list (string * Parameters)) (ps : list (string * DailyValues)) :
  requests_get now (url lat lon year) = Return resp ->
  raise_for_status resp = Return tt ->
  json_ resp = Return (JDict d) ->
  Py.lookup "properties" d = Some (JDict p) ->
  Py.lookup "parameter" p = Some (JDict ps) ->
  Py.lookup "WS10M" ps = None ->
  Py.lookup "WD10M" ps = None ->
  Py.lookup "ALLSKY_SFC_SW_DWN" ps = None ->
  fetch_nasa_power_data now lat lon year = (Some [], []) /\
  present (fst (fetch_nasa_power_data now lat lon year)) = None.
Proof.
  intros Hget Hst Hjson Hd Hp Hws Hwd Hsol.
  assert (E : fetch_nasa_power_data now lat lon year = (Some [], [])).
  { rewrite (fetch_unfold _ _ _ _ _ _ Hget Hst Hjson).
    rewrite (parse_expected d p ps [] [] []); try assumption;
      cbn; rewrite ?Hws, ?Hwd, ?Hsol; reflexivity. }
  now rewrite E.
Qed.

End FetcherEdges.

Lemma fetcher_rejects_bad_key_witness :
  @fetch_nasa_power_data (api_ok body_bad_key) 0 40.7128 (-74.0060) 2023
  = (None, [ErrorProcessing ValueError]).
Proof.
  apply (@fetcher_rejects_bad_key (api_ok body_bad_key) 0 40.7128 (-74.0060) 2023
           _ _ _ _ _ _ _ "2023-01-01"
           eq_refl eq_refl eq_refl eq_refl eq_refl eq_refl eq_refl eq_refl).
  - left. reflexivity.
  - reflexivity.
Defined.

Lemma fetcher_non_object_body_witness :
  @fetch_nasa_power_data api_malformed 0 40.7128 (-74.0060) 2023
  = (None, [UnexpectedFormat]).
Proof.
  apply (@fetcher_non_object_body api_malformed 0 40.7128 (-74.0060) 2023
           _ _ eq_refl eq_refl eq_refl).
  reflexivity.
Defined.

Lemma fetcher_non_object_parameter_witness :
  @fetch_nasa_power_data (api_ok body_parameter_null) 0 40.7128 (-74.0060) 2023
  = (None, [ErrorProcessing AttributeError]).
Proof.
  apply (@fetcher_non_object_parameter (api_ok body_parameter_null) 0 40.7128
           (-74.0060) 2023 _ _ _ _ eq_refl eq_refl eq_refl eq_refl eq_refl).
  left. reflexivity.
Defined.

Lemma fetcher_no_series_witness :
  @fetch_nasa_power_data (api_ok body_no_parameters) 0 40.7128 (-74.0060) 2023
  = (Some [], []) /\
  present (fst (@fetch_nasa_power_data (api_ok body_no_parameters) 0 40.7128
                  (-74.0060) 2023)) = None.
Proof.
  apply (@fetcher_no_series (api_ok body_no_parameters) 0 40.7128 (-74.0060) 2023
           _ _ _ _ eq_refl eq_refl eq_refl eq_refl eq_refl eq_refl eq_refl eq_refl).
Defined.
(** ** The analysis run, continued *)

(** X11: for a frame with at least one row, the analysis is always shown;
    when every wind speed is missing it rates wind as Excellent, and when
    every solar value is missing it rates solar as Excellent. *)
Theorem undefined_average_rated_excellent (df : DataFrame) :
  df <> [] ->
  exists a,
    present (Some df) = Some a /\
    days a = length df /\
    metrics a = calculate_metrics df /\
    (Forall (fun r => wind_speed r = NaN) df -> wind_potential a = WindExcellent) /\
    (Forall (fun r => solar_irradiance r = NaN) df ->
     solar_potential a = SolarExcellent).
Proof.
  intros Hne. destruct df as [|r df]; [contradiction|].
  cbn [present empty]. eexists. split; [reflexivity|].
  cbn [days metrics wind_potential solar_potential].
  split; [reflexivity|]. split; [reflexivity|]. split; intros H.
  - assert (E : Series.mean (map wind_speed (r :: df)) = NaN)
      by (apply mean_NaN_iff, Forall_map, H).
    cbn [calculate_metrics avg_wind_speed]. now rewrite E.
  - assert (E : Series.mean (map solar_irradiance (r :: df)) = NaN)
      by (apply mean_NaN_iff, Forall_map, H).
    cbn [calculate_metrics avg_solar_radiation]. now rewrite E.
Qed.

Lemma undefined_average_rated_excellent_witness :
  exists a, present (Some no_solar_days) = Some a /\
            solar_potential a = SolarExcellent.
Proof.
  destruct (undefined_average_rated_excellent no_solar_days)
    as (a & H1 & _ & _ & _ & H2).
  - discriminate.
  - exists a. split; [exact H1|]. apply H2. repeat constructor.
Defined.

(** ** Classifiers, continued *)

(** X12: each wind band is assigned on its interval only: Poor exactly
    below 3, Marginal exactly on [3,5), Fair exactly on [5,6.5), Good exactly
    on [6.5,7.5), and Excellent exactly from 7.5 on or for a NaN average; and
    each solar band likewise, Excellent being assigned exactly from 5 on or
    for a NaN average. *)
Theorem bands_only_on_their_intervals (x : float) :
  (wind_assessment x = WindPoor <-> exists v, x = Num v /\ v < 3) /\
  (wind_assessment x = WindMarginal <-> exists v, x = Num v /\ 3 <= v < 5) /\
  (wind_assessment x = WindFair <-> exists v, x = Num v /\ 5 <= v < 6.5) /\
  (wind_assessment x = WindGood <-> exists v, x = Num v /\ 6.5 <= v < 7.5) /\
  (wind_assessment x = WindExcellent <->
   x = NaN \/ exists v, x = Num v /\ 7.5 <= v) /\
  (solar_assessment x = SolarPoor <-> exists v, x = Num v /\ v < 3) /\
  (solar_assessment x = SolarFair <-> exists v, x = Num v /\ 3 <= v < 4) /\
  (solar_assessment x = SolarGood <-> exists v, x = Num v /\ 4 <= v < 5) /\
  (solar_assessment x = SolarExcellent <->
   x = NaN \/ exists v, x = Num v /\ 5 <= v).
Proof.
  destruct x as [|v].
  - repeat split; intros H; try discriminate H; auto;
      destruct H as (v & E & _); discriminate E.
  - assert (Hw : (wind_assessment (Num v) = WindPoor /\ v < 3) \/
                 (wind_assessment (Num v) = WindMarginal /\ 3 <= v < 5) \/
                 (wind_assessment (Num v) = WindFair /\ 5 <= v < 6.5) \/
                 (wind_assessment (Num v) = WindGood /\ 6.5 <= v < 7.5) \/
                 (wind_assessment (Num v) = WindExcellent /\ 7.5 <= v)).
    { chain_wind v; auto 10. }
    assert (Hs : (solar_assessment (Num v) = SolarPoor /\ v < 3) \/
                 (solar_assessment (Num v) = SolarFair /\ 3 <= v < 4) \/
                 (solar_assessment (Num v) = SolarGood /\ 4 <= v < 5) \/
                 (solar_assessment (Num v) = SolarExcellent /\ 5 <= v)).
    { chain_solar v; auto 10. }
    repeat split; intros H;
      try (destruct H as [H|H]; [discriminate H|]);
      try (destruct H as (v' & E & Hv'); injection E as <-);
      try (decompose [or and] Hw; congruence || (exfalso; lra));
      try (decompose [or and] Hs; congruence || (exfalso; lra));
      try (right); try (exists v; split; [reflexivity|]);
      first [ decompose [or and] Hw; first [ lra | congruence ]
            | decompose [or and] Hs; first [ lra | congruence ] ].
Qed.
(** ** Sessions *)

Section SessionFacts.

Context {env : Environment}.




(** X14: a tuple analysed for the first time goes to the API once, and when
    the response has the expected structure with n >= 1 entries in each
    series (the wind-speed keys being dates), the analysis is shown for n
    days, with n points on each of the two time-series traces. *)
Theorem analysis_of_fresh_tuple (lat lon : Q) (year : Z) (w : World)
  (resp : Response) (d : list (string * Properties))
  (p : list (string * Parameters)) (ps : list (string * DailyValues))
  (ws wd sol : list (string * float)) (dates : list Date) :
  find (lat, lon, year) (cache w) = None ->
  requests_get (clock w) (url lat lon year) = Return resp ->
  raise_for_status resp = Return tt ->
  json_ resp = Return (JDict d) ->
  Py.lookup "properties" d = Some (JDict p) ->
  Py.lookup "parameter" p = Some (JDict ps) ->
  Py.get (JDict ps) "WS10M" (JDict []) = Return (JDict ws) ->
  Py.get (JDict ps) "WD10M" (JDict []) = Return (JDict wd) ->
  Py.get (JDict ps) "ALLSKY_SFC_SW_DWN" (JDict []) = Return (JDict sol) ->
  to_datetime (map fst ws) = Return dates ->
  length wd = length ws -> length sol = length ws -> ws <> [] ->
  exists a,
    fst (analyze lat lon year w) = Some a /\
    sent (snd (analyze lat lon year w)) = url lat lon year :: sent w /\
    days a = length ws /\
    metrics a = calculate_metrics
                  (clean (rows dates (map snd ws) (map snd wd) (map snd sol))) /\
    length (scatter_x (wind_fig a)) = length ws /\
    length (scatter_y (wind_fig a)) = length ws /\
    length (scatter_x (solar_fig a)) = length ws /\
    length (scatter_y (solar_fig a)) = length ws.
Proof.
  intros Hfind Hget Hst Hjson Hd Hp Hws Hwd Hsol Hdates Lwd Lsol Hne.
  pose proof (to_datetime_length _ _ Hdates) as Ldates.
  rewrite length_map in Ldates.
  set (df := clean (rows dates (map snd ws) (map snd wd) (map snd sol))).
  assert (Hfetch : fetch_nasa_power_data (clock w) lat lon year = (Some df, [])).
  { rewrite (fetch_unfold _ _ _ _ _ _ Hget Hst Hjson).
    rewrite (parse_expected _ _ _ _ _ _ Hd Hp Hws Hwd Hsol).
    rewrite Hdates. cbn [bind].
    rewrite mkDataFrame_ok by (rewrite !length_map; congruence).
    reflexivity. }
  assert (Ldf : length df = length ws).
  { subst df. unfold clean, replace.
    rewrite length_map, rows_length; rewrite ?length_map; congruence. }
  rewrite analyze_cached_fetch. unfold cached_fetch. rewrite Hfind, Hfetch.
  cbn [fst snd after_miss sent].
  destruct df as [|r df'] eqn:Edf.
  { destruct ws; [contradiction|discriminate]. }
  cbn [present empty]. eexists. split; [reflexivity|].
  cbn [days metrics wind_fig solar_fig create_time_series_charts fst snd
       scatter_x scatter_y].
  rewrite !length_map. repeat split; assumption.
Qed.

(** X15: a failure is cached like a frame: once a call that went to the API
    has returned [None], every analysis of the same tuple made less than
    3600 seconds later shows "Failed to retrieve data" again without sending
    a request, whatever the API would answer by then. *)
Theorem failure_is_cached (lat lon : Q) (year : Z) (w : World) (evs : list event) :
  let first := cached_fetch lat lon year w in
  let w2 := run evs (snd first) in
  sent (snd first) = url lat lon year :: sent w ->
  fst (fst first) = None ->
  forallb (other_key (lat, lon, year)) evs = true ->
  (clock w2 < clock w + ttl)%Z ->
  analyze lat lon year w2 = (None, w2).
Proof.
  intros first w2 Hsent Hnone Hevs Ht.
  destruct (cached_fetch_cases lat lon year w) as [Hhit|Hmiss].
  { exfalso. subst first. rewrite Hhit in Hsent. exact (cons_neq _ _ Hsent). }
  set (e := mkEntry (lat, lon, year) (clock w + ttl)%Z
              (fetch_nasa_power_data (clock w) lat lon year)).
  assert (Hf : find (lat, lon, year) (cache w2) = Some e).
  { subst w2 first. apply run_keeps_entry; [exact Hevs|].
    rewrite Hmiss. cbn [snd after_miss cache]. apply (find_store_same e). }
  rewrite analyze_cached_fetch, (cached_fetch_hit _ _ _ _ e Hf Ht).
  cbn [fst snd cached e]. subst first. rewrite Hmiss in Hnone. cbn [fst] in Hnone.
  now rewrite Hnone.
Qed.

End SessionFacts.

Lemma analysis_of_fresh_tuple_witness :
  exists a,
    fst (@analyze (api_ok body_aligned) 40.7128 (-74.0060) 2023 boot) = Some a /\
    days a = 2%nat.
Proof.
  destruct (@analysis_of_fresh_tuple (api_ok body_aligned) 40.7128 (-74.0060) 2023
              boot _ _ _ _ _ _ _ [jan 1; jan 2]
              eq_refl eq_refl eq_refl eq_refl eq_refl eq_refl eq_refl eq_refl
              eq_refl eq_refl eq_refl eq_refl)
    as (a & H1 & _ & H3 & _).
  - discriminate.
  - exists a. split; assumption.
Defined.

Lemma failure_is_cached_witness :
  @requests_get api_recovering 1800 (@url 40.7128 (-74.0060) 2023)
  = Return (mkResponse 200 (Return body_aligned)) /\
  fst (@analyze api_recovering 40.7128 (-74.0060) 2023
         (@run api_recovering [Wait 1800]
            (snd (@cached_fetch api_recovering 40.7128 (-74.0060) 2023 boot))))
  = None.
Proof.
  split; [reflexivity|].
  rewrite (@failure_is_cached api_recovering 40.7128 (-74.0060) 2023 boot
             [Wait 1800] eq_refl eq_refl eq_refl); [reflexivity|].
  vm_compute. reflexivity.
Defined.
(** ** The sentinel after cleaning *)

Lemma In_dropna (col : list float) (q : Q) :
  In q (Series.dropna col) <-> In (Num q) col.
Proof.
  induction col as [|[|y] col IH]; cbn.
  - tauto.
  - rewrite IH. split; [auto|]. intros [H|H]; [discriminate|auto].
  - rewrite IH. split; intros [H|H]; auto; left; congruence.
Qed.

Lemma not_sentinel_Num (q : Q) :
  not_sentinel (Num q) = true -> ~ q == sentinel.
Proof.
  unfold not_sentinel. cbn. intros H E.
  apply Qeq_bool_iff in E. rewrite E in H. discriminate.
Qed.

(** X16: whatever the raw frame, -999 reaches neither the wind rose nor the
    aggregates of the cleaned frame: no pair of the wind-rose data has it as
    speed or direction, no value entering the wind or solar aggregates is
    -999, and no maximum is -999. *)
Theorem sentinel_never_used (raw : DataFrame) :
  let df := clean raw in
  (forall s d, In (s, d) (dropna_wind df) -> ~ s == sentinel /\ ~ d == sentinel) /\
  (forall q, In q (Series.dropna (map wind_speed df)) -> ~ q == sentinel) /\
  (forall q, In q (Series.dropna (map solar_irradiance df)) -> ~ q == sentinel) /\
  (forall m, max_wind_speed (calculate_metrics df) = Num m -> ~ m == sentinel) /\
  (forall m, max_solar_radiation (calculate_metrics df) = Num m -> ~ m == sentinel).
Proof.
  intros df.
  assert (Hw : forall q, In q (Series.dropna (map wind_speed df)) -> ~ q == sentinel).
  { intros q Hq. apply In_dropna, in_map_iff in Hq as (r & Er & Hr).
    apply clean_cells in Hr as (H & _ & _). rewrite Er in H.
    now apply not_sentinel_Num. }
  assert (Hs : forall q, In q (Series.dropna (map solar_irradiance df)) ->
                         ~ q == sentinel).
  { intros q Hq. apply In_dropna, in_map_iff in Hq as (r & Er & Hr).
    apply clean_cells in Hr as (_ & _ & H). rewrite Er in H.
    now apply not_sentinel_Num. }
  split; [|split; [exact Hw|split; [exact Hs|split]]].
  - intros s d Hin. apply In_dropna_wind in Hin as (r & Hr & Es & Ed).
    apply clean_cells in Hr as (H1 & H2 & _). rewrite Es in H1. rewrite Ed in H2.
    split; now apply not_sentinel_Num.
  - intros m Hm. apply Hw. cbn in Hm. unfold Series.max in Hm.
    destruct (Series.dropna (map wind_speed df)) as [|x xs]; [discriminate|].
    injection Hm as <-. apply fold_Qmax_mem.
  - intros m Hm. apply Hs. cbn in Hm. unfold Series.max in Hm.
    destruct (Series.dropna (map solar_irradiance df)) as [|x xs]; [discriminate|].
    injection Hm as <-. apply fold_Qmax_mem.
Qed.
